(** * Behaviour-analysis bot: scoring functions and report assembly

    A shallow embedding of [bot.py] (class [BehaviorAnalysisBot]) and the
    properties of its scoring and report code.

    Conventions of the embedding.
    - A Python [str] is a [string]; [str.lower] is modelled on the ASCII
      letters, which is where every keyword of the lexicon lives.
    - A Python [int] is a [Z].
    - A Python [float] that is finite is the rational number it denotes, a [Q];
      a float literal of the source is the exact value of the double it
      denotes.  Comparisons ([<], [>]) and [abs] are exact on those values.
      Quotients and means are the exact rational the float result rounds.
    - A naive [datetime] is the number of microseconds since midnight of
      ordinal day 0, a [Z]; its calendar date, its hour and the [days] field
      of a difference are read off that number.
    - The SQLite database is a record of two tables, each the list of its rows
      in insertion order; a handler takes the database and returns it with
      its reply. *)

From Stdlib Require Import ZArith QArith Qabs List String Ascii Bool Lia.
From Stdlib Require Import Sorting.Sorted Sorting.Permutation.
Import ListNotations.

Local Open Scope string_scope.
Local Open Scope Z_scope.

(** ** Python built-ins used by the bot *)

Module Py.

(** [sum(xs)] on integers. *)
Definition sum (xs : list Z) : Z := fold_right Z.add 0 xs.

(** [c.lower()] for one character. *)
Definition lower_char (c : ascii) : ascii :=
  let n := nat_of_ascii c in
  if (Nat.leb 65 n && Nat.leb n 90)%bool then ascii_of_nat (n + 32) else c.

(** [s.lower()]. *)
Fixpoint lower (s : string) : string :=
  match s with
  | EmptyString => EmptyString
  | String c s' => String (lower_char c) (lower s')
  end.

(** [sub in s]: [sub] starts at some position of [s]. *)
Fixpoint contains (sub s : string) : bool :=
  prefix sub s ||
  match s with
  | EmptyString => false
  | String _ s' => contains sub s'
  end.

(** [s.count(sub)]: the occurrences of [sub] in [s] met scanning from the
    left, the scan resuming after each occurrence found.  [skip] is the number
    of characters still covered by the last occurrence. *)
Fixpoint count_from (sub : string) (skip : nat) (s : string) : Z :=
  match s with
  | EmptyString =>
      match skip with
      | O => if prefix sub EmptyString then 1 else 0
      | S _ => 0
      end
  | String _ s' =>
      match skip with
      | S k => count_from sub k s'
      | O => if prefix sub s
             then 1 + count_from sub (Nat.pred (String.length sub)) s'
             else count_from sub O s'
      end
  end.

Definition count (s sub : string) : Z := count_from sub O s.

(** [sep.join(xs)]. *)
Fixpoint join (sep : string) (xs : list string) : string :=
  match xs with
  | [] => EmptyString
  | [x] => x
  | x :: rest => x ++ sep ++ join sep rest
  end.

(** The characters [str.split()] treats as separators, in ASCII. *)
Definition is_space (c : ascii) : bool :=
  let n := nat_of_ascii c in
  (Nat.leb 9 n && Nat.leb n 13) || (Nat.leb 28 n && Nat.leb n 32).

(** [len(s.split())]: the number of maximal runs of non-space characters.
    [in_word] tells whether the previous character belonged to a word. *)
Fixpoint count_words (in_word : bool) (s : string) : Z :=
  match s with
  | EmptyString => 0
  | String c s' =>
      if is_space c then count_words false s'
      else (if in_word then 0 else 1) + count_words true s'
  end.

Definition len_split (s : string) : Z := count_words false s.

End Py.

(** ** The lexicon set up by [__init__] *)

Inductive trait : Type :=
  | extraversion | openness | conscientiousness | agreeableness | neuroticism.

(** [self.personality_indicators], in the order the dict literal lists it. *)
Definition personality_indicators : list (trait * list string) :=
  [ (extraversion,
     ["party"; "friends"; "social"; "outgoing"; "energy"; "talk"; "people"]);
    (openness,
     ["creative"; "art"; "new"; "explore"; "imagination"; "curious";
      "different"]);
    (conscientiousness,
     ["organized"; "plan"; "schedule"; "work"; "goal"; "discipline";
      "complete"]);
    (agreeableness,
     ["help"; "kind"; "support"; "care"; "team"; "cooperation"; "please"]);
    (neuroticism,
     ["stress"; "worry"; "anxious"; "nervous"; "fear"; "sad"; "upset"]) ].

(** [self.stress_keywords]. *)
Definition stress_keywords : list string :=
  ["deadline"; "pressure"; "overwhelmed"; "can't"; "too much"; "tired";
   "exhausted"].

(** ** [detect_stress_level] *)

Inductive stress_category : Type := HighStress | ModerateStress | LowStress.

Record stress : Type := { level : Z; category : stress_category }.

Definition detect_stress_level (text : string) : stress :=
  let text_lower := Py.lower text in
  let stress_count :=
    Py.sum (map (fun _ => 1)
                (filter (fun keyword => Py.contains keyword text_lower)
                        stress_keywords)) in
  let stress_level := Z.min (stress_count * 2) 10 in
  if 7 <=? stress_level then
    {| level := stress_level; category := HighStress |}
  else if 4 <=? stress_level then
    {| level := stress_level; category := ModerateStress |}
  else
    {| level := stress_level; category := LowStress |}.

(** ** Floats as rationals *)

(** [x < y] on floats. *)
Definition Qlt_bool (x y : Q) : bool := negb (Qle_bool y x).

(** The literals [0.1], [0.2] and [0.3]: the doubles nearest to them. *)
Definition lit_0_1 : Q := 3602879701896397 # 36028797018963968.
Definition lit_0_2 : Q := 3602879701896397 # 18014398509481984.
Definition lit_0_3 : Q := 5404319552844595 # 18014398509481984.

(** Sum of a list of floats, and the mean when there is one: [None] is the
    NULL that SQL's [AVG] gives over no row. *)
Definition Qsum (xs : list Q) : Q := fold_right Qplus (0 # 1) xs.

Definition mean (xs : list Q) : option Q :=
  match xs with
  | [] => None
  | _ :: _ => Some (Qsum xs / inject_Z (Z.of_nat (List.length xs)))%Q
  end.

(** ** Timestamps *)

Definition datetime : Type := Z.

Definition usec_per_hour : Z := 3600000000.
Definition usec_per_day : Z := 24 * usec_per_hour.

(** [DATE(timestamp)], as the ordinal of the day. *)
Definition date_of (t : datetime) : Z := t / usec_per_day.

(** [CAST(strftime('%H', timestamp) AS INTEGER)]. *)
Definition hour_of (t : datetime) : Z := (t / usec_per_hour) mod 24.

(** [(a - b).days]: a [timedelta] is normalised with its seconds and
    microseconds non-negative, so [days] is the floor of the quotient. *)
Definition timedelta_days (a b : datetime) : Z := (a - b) / usec_per_day.

(** [t - timedelta(days=n)]. *)
Definition minus_days (t : datetime) (n : Z) : datetime := t - n * usec_per_day.

(** The datetime at [h]:[m] of the day of ordinal [d]. *)
Definition at_time (d h m : Z) : datetime :=
  d * usec_per_day + h * usec_per_hour + m * 60000000.

(** ** The database *)

Record user_row : Type := {
  u_user_id : Z;
  username : option string;
  first_name : string;
  registration_date : datetime;
  total_messages : Z
}.

Record message_row : Type := {
  id : Z;
  user_id : Z;
  message_text : string;
  timestamp : datetime;
  sentiment_score : Q;
  word_count : Z
}.

Record database : Type := {
  users : list user_row;
  messages : list message_row
}.

(** [setup_database] on a fresh file: both tables empty. *)
Definition setup_database : database := {| users := []; messages := [] |}.

(** *** Query helpers *)

Section OrderBy.
Context {A : Type}.

(** [before x y]: the ordering lets [x] stand before [y]. *)
Variable before : A -> A -> bool.

Fixpoint insert_row (x : A) (l : list A) : list A :=
  match l with
  | [] => [x]
  | y :: l' => if before x y then x :: l else y :: insert_row x l'
  end.

(** [ORDER BY]: rows that compare equal stay in table order. *)
Definition order_by (l : list A) : list A := fold_right insert_row [] l.

End OrderBy.

(** [WHERE user_id = ?]. *)
Definition rows_of (db : database) (uid : Z) : list message_row :=
  filter (fun r => user_id r =? uid) (messages db).

(** [WHERE user_id = ? ORDER BY timestamp DESC]: the rows of a user, newest
    first. *)
Definition newest_first (db : database) (uid : Z) : list message_row :=
  order_by (fun x y => timestamp y <=? timestamp x) (rows_of db uid).

(** [WHERE user_id = ? ORDER BY timestamp DESC LIMIT n]. *)
Definition recent_rows (db : database) (uid : Z) (n : nat) : list message_row :=
  firstn n (newest_first db uid).

(** [COUNT( * )]. *)
Definition sql_count {A : Type} (rows : list A) : Z := Z.of_nat (List.length rows).

(** [MIN(col)] and [MAX(col)], NULL over no row. *)
Definition sql_min (xs : list Z) : option Z :=
  match xs with
  | [] => None
  | x :: rest => Some (fold_left Z.min rest x)
  end.

Definition sql_max (xs : list Z) : option Z :=
  match xs with
  | [] => None
  | x :: rest => Some (fold_left Z.max rest x)
  end.

(** The distinct values of a column in ascending order: the group keys of a
    [GROUP BY col ORDER BY col]. *)
Fixpoint insert_key (k : Z) (l : list Z) : list Z :=
  match l with
  | [] => [k]
  | y :: l' =>
      if k <? y then k :: l
      else if k =? y then l
      else y :: insert_key k l'
  end.

Definition group_keys (ks : list Z) : list Z := fold_right insert_key [] ks.

(** ** [register_user] *)

Definition register_user (now : datetime) (uid : Z) (uname : option string)
    (fname : string) (db : database) : database :=
  if existsb (fun u => u_user_id u =? uid) (users db) then db
  else {| users := users db ++
                   [ {| u_user_id := uid; username := uname;
                        first_name := fname; registration_date := now;
                        total_messages := 0 |} ];
          messages := messages db |}.

(** ** [analyze_personality] *)

Definition analyze_personality (db : database) (uid : Z) : list (trait * Z) :=
  let messages := map (fun row => Py.lower (message_text row))
                      (recent_rows db uid 50) in
  let all_text := Py.join " " messages in
  map (fun '(trait, keywords) =>
         let score :=
           Py.sum (map (fun keyword => Py.count all_text keyword) keywords) in
         (trait, Z.min (score * 5) 100))
      personality_indicators.

(** ** Replies *)

Inductive mood : Type := Positive | Negative | Neutral.

Record sentiment : Type := {
  polarity : Q;
  subjectivity : Q;
  mood_label : mood;
  confidence : Q
}.

Inductive trend : Type := improving | declining.

Inductive period : Type := Morning | Afternoon | Evening | Night.

(** The lines the handlers append to a report. *)
Inductive advice : Type :=
  | TalkToSomeone | TryRelaxation
  | GreatEnergy | GoodMentalSpace
  | MoodBalanced | ContinueMonitoring
  | TakeBreaks
  | SociallyEngaged | CreativeAndOpen | GoodOrganization | CooperativeHelpful
  | SensitiveToStress
  | PractiseGratitude | BoostYourMood
  | GreatOutlook | SharePositivity
  | ExpressYourselfMore.

Record feedback : Type := {
  fb_message_number : Z;
  fb_mood : mood;
  fb_stress : stress_category;
  fb_confidence : Q
}.

Record mood_report : Type := {
  mr_mood : mood;
  mr_stress : stress_category;
  mr_intensity : Q;
  mr_avg_sentiment : Q;
  mr_trend : trend;
  mr_count : Z;
  mr_insights : list advice
}.

(** One trait of the personality report: its score and the filled and empty
    segments of its bar. *)
Record trait_line : Type := {
  tl_trait : trait;
  tl_score : Z;
  tl_filled : Z;
  tl_empty : Z
}.

Record personality_report : Type := {
  pr_lines : list trait_line;
  pr_dominant : trait;
  pr_insights : list advice
}.

Record daily_line : Type := {
  dl_date : Z;
  dl_count : Z;
  dl_mood : mood;
  dl_sentiment : Q
}.

Record period_line : Type := {
  pl_period : period;
  pl_count : Z;
  pl_percentage : Q
}.

Record behavior_report : Type := {
  br_total : Z;
  br_avg_sentiment : Q;
  br_avg_words : Q;
  br_weekly : list daily_line;
  br_above_average : list (trait * Z);
  br_most_active : option period;
  br_activity : list period_line;
  br_recommendations : list advice
}.

Record statistics_report : Type := {
  st_total : Z;
  st_days_active : Z;
  st_per_day : Q;
  st_avg_sentiment : Q;
  st_category : mood;
  st_last_message : option Z;
  st_accuracy : Z
}.

Inductive reply : Type :=
  | QuickAnalysis (f : feedback)
  | NeedMoreForMood
  | MoodAnalysis (r : mood_report)
  | NeedMoreForPersonality
  | PersonalityAnalysis (r : personality_report)
  | NeedFiveMessages
  | BehaviorReport (r : behavior_report)
  | NoDataYet
  | Statistics (r : statistics_report).

Inductive exn : Type := ZeroDivisionError | TypeError | KeyError | ValueError.

(** What a handler does towards the chat: one reply, none, or an exception
    that leaves it without a reply. *)
Inductive outcome : Type :=
  | Sent (r : reply)
  | Nothing
  | Raised (e : exn).

(** ** The handlers *)

(** The thresholds on a polarity, written out three times in the source:
    [analyze_sentiment], the weekly summary and [user_stats]. *)
Definition classify (p : Q) : mood :=
  if Qlt_bool lit_0_1 p then Positive
  else if Qlt_bool p (- lit_0_1) then Negative
  else Neutral.

(** [statistics.mean] on a list that is not empty. *)
Definition statistics_mean (xs : list Q) : Q :=
  (Qsum xs / inject_Z (Z.of_nat (List.length xs)))%Q.

(** The [CASE] of the activity query. *)
Definition between (x lo hi : Z) : bool := (lo <=? x) && (x <=? hi).

Definition time_period (t : datetime) : period :=
  let h := hour_of t in
  if between h 6 12 then Morning
  else if between h 12 18 then Afternoon
  else if between h 18 22 then Evening
  else Night.

Definition period_eqb (p q : period) : bool :=
  match p, q with
  | Morning, Morning | Afternoon, Afternoon
  | Evening, Evening | Night, Night => true
  | _, _ => false
  end.

Definition trait_eqb (s t : trait) : bool :=
  match s, t with
  | extraversion, extraversion | openness, openness
  | conscientiousness, conscientiousness | agreeableness, agreeableness
  | neuroticism, neuroticism => true
  | _, _ => false
  end.

(** [GROUP BY time_period ORDER BY msg_count DESC]: the groups are formed in
    the order of their names, only the periods with a row make a group, and
    groups of equal count keep that order. *)
Definition time_patterns (rows : list message_row) : list (period * Z) :=
  order_by (fun x y => snd y <=? snd x)
    (filter (fun g => 0 <? snd g)
       (map (fun p =>
               (p, sql_count
                     (filter (fun r => period_eqb (time_period (timestamp r)) p)
                             rows)))
            [Afternoon; Evening; Morning; Night])).

(** [WHERE timestamp > ? GROUP BY DATE(timestamp) ORDER BY DATE(timestamp)]:
    date, mean sentiment and count of each day. *)
Definition daily_data (rows : list message_row) (week_ago : datetime)
  : list (Z * option Q * Z) :=
  let recent := filter (fun r => week_ago <? timestamp r) rows in
  map (fun d =>
         let day := filter (fun r => date_of (timestamp r) =? d) recent in
         (d, mean (map sentiment_score day), sql_count day))
      (group_keys (map (fun r => date_of (timestamp r)) recent)).

(** The lines of the weekly summary; comparing a NULL mean is a [TypeError]. *)
Fixpoint weekly_lines (data : list (Z * option Q * Z)) : option (list daily_line) :=
  match data with
  | [] => Some []
  | (date, Some sentiment, count) :: rest =>
      match weekly_lines rest with
      | Some lines =>
          Some ({| dl_date := date; dl_count := count;
                   dl_mood := classify sentiment;
                   dl_sentiment := sentiment |} :: lines)
      | None => None
      end
  | (_, None, _) :: _ => None
  end.

(** [personality_scores[t]]. *)
Definition score_of (t : trait) (scores : list (trait * Z)) : option Z :=
  option_map snd (find (fun kv => trait_eqb (fst kv) t) scores).

(** [max(personality_scores, key=personality_scores.get)]: the first key of
    the largest score, [best] being the one found so far. *)
Fixpoint max_by_score (best : trait * Z) (l : list (trait * Z)) : trait :=
  match l with
  | [] => fst best
  | kv :: l' =>
      if snd best <? snd kv then max_by_score kv l' else max_by_score best l'
  end.

Section Bot.

(** [TextBlob(text).sentiment]: polarity and subjectivity of a text. *)
Variable TextBlob_sentiment : string -> Q * Q.

Definition analyze_sentiment (text : string) : sentiment :=
  let '(polarity, subjectivity) := TextBlob_sentiment text in
  let mood :=
    if Qlt_bool lit_0_1 polarity then Positive
    else if Qlt_bool polarity (- lit_0_1) then Negative
    else Neutral in
  {| polarity := polarity; subjectivity := subjectivity;
     mood_label := mood; confidence := Qabs polarity |}.

(** [analyze_message]: [now_reg] and [now_msg] are the two readings of the
    clock, in [register_user] and at the insertion. *)
Definition analyze_message (now_reg now_msg : datetime) (uid : Z)
    (uname : option string) (fname text : string) (db : database)
  : database * outcome :=
  let db1 := register_user now_reg uid uname fname db in
  let sentiment := analyze_sentiment text in
  let row := {| id := sql_count (messages db1) + 1; user_id := uid;
                message_text := text; timestamp := now_msg;
                sentiment_score := polarity sentiment;
                word_count := Py.len_split text |} in
  let bump u :=
    if u_user_id u =? uid then
      {| u_user_id := u_user_id u; username := username u;
         first_name := first_name u;
         registration_date := registration_date u;
         total_messages := total_messages u + 1 |}
    else u in
  let db2 := {| users := map bump (users db1);
                messages := messages db1 ++ [row] |} in
  match find (fun u => u_user_id u =? uid) (users db2) with
  | None => (db2, Raised TypeError)
  | Some u =>
      let total_msgs := total_messages u in
      if total_msgs mod 10 =? 0 then
        let stress := detect_stress_level text in
        (db2, Sent (QuickAnalysis
                      {| fb_message_number := total_msgs;
                         fb_mood := mood_label sentiment;
                         fb_stress := category stress;
                         fb_confidence := confidence sentiment |}))
      else (db2, Nothing)
  end.

Definition mood_analysis (uid : Z) (db : database) : database * outcome :=
  let recent_data := recent_rows db uid 20 in
  match recent_data with
  | [] => (db, Sent NeedMoreForMood)
  | latest :: _ =>
      let sentiments := map sentiment_score recent_data in
      let avg_sentiment := statistics_mean sentiments in
      let mood_trend :=
        if (1 <? Z.of_nat (List.length sentiments))
           && Qlt_bool (last sentiments (0 # 1)) (nth 0 sentiments (0 # 1))
        then improving else declining in
      let latest_text := message_text latest in
      let current_sentiment := analyze_sentiment latest_text in
      let stress := detect_stress_level latest_text in
      let insights :=
        ((if Qlt_bool avg_sentiment (- lit_0_3) then
            [TalkToSomeone; TryRelaxation]
          else if Qlt_bool lit_0_3 avg_sentiment then
            [GreatEnergy; GoodMentalSpace]
          else [MoodBalanced; ContinueMonitoring])
         ++ (if 5 <? level stress then [TakeBreaks] else []))%list in
      (db, Sent (MoodAnalysis
                   {| mr_mood := mood_label current_sentiment;
                      mr_stress := category stress;
                      mr_intensity := confidence current_sentiment;
                      mr_avg_sentiment := avg_sentiment;
                      mr_trend := mood_trend;
                      mr_count := Z.of_nat (List.length recent_data);
                      mr_insights := insights |}))
  end.

Definition personality_analysis (uid : Z) (db : database) : database * outcome :=
  let personality_scores := analyze_personality db uid in
  if negb (existsb (fun kv => negb (snd kv =? 0)) personality_scores) then
    (db, Sent NeedMoreForPersonality)
  else
    let lines :=
      map (fun '(trait, score) =>
             {| tl_trait := trait; tl_score := score;
                tl_filled := score / 10; tl_empty := 10 - score / 10 |})
          personality_scores in
    match personality_scores with
    | [] => (db, Raised ValueError)
    | kv :: rest =>
        let dominant_trait := max_by_score kv rest in
        match score_of extraversion personality_scores,
              score_of openness personality_scores,
              score_of conscientiousness personality_scores,
              score_of agreeableness personality_scores,
              score_of neuroticism personality_scores with
        | Some e, Some o, Some c, Some a, Some n =>
            let insights :=
              ((if 60 <? e then [SociallyEngaged] else [])
               ++ (if 70 <? o then [CreativeAndOpen] else [])
               ++ (if 65 <? c then [GoodOrganization] else [])
               ++ (if 70 <? a then [CooperativeHelpful] else [])
               ++ (if 60 <? n then [SensitiveToStress] else []))%list in
            (db, Sent (PersonalityAnalysis
                         {| pr_lines := lines;
                            pr_dominant := dominant_trait;
                            pr_insights := insights |}))
        | _, _, _, _, _ => (db, Raised KeyError)
        end
    end.

Definition generate_report (now : datetime) (uid : Z) (db : database)
  : database * outcome :=
  let rows := rows_of db uid in
  let total_messages := sql_count rows in
  let avg_sentiment := mean (map sentiment_score rows) in
  let avg_words := mean (map (fun r => inject_Z (word_count r)) rows) in
  if total_messages <? 5 then (db, Sent NeedFiveMessages)
  else
    let week_ago := minus_days now 7 in
    let daily := daily_data rows week_ago in
    match avg_sentiment, avg_words, weekly_lines daily with
    | Some avg_sentiment, Some avg_words, Some weekly =>
        let personality := analyze_personality db uid in
        let above := filter (fun kv => 50 <? snd kv) personality in
        let patterns := time_patterns rows in
        let most_active :=
          match patterns with
          | [] => None
          | (p, _) :: _ => Some p
          end in
        let activity :=
          map (fun '(period, count) =>
                 {| pl_period := period; pl_count := count;
                    pl_percentage :=
                      (inject_Z count / inject_Z total_messages
                       * inject_Z 100)%Q |})
              patterns in
        let recommendations :=
          ((if Qlt_bool avg_sentiment (- lit_0_2) then
              [PractiseGratitude; BoostYourMood]
            else if Qlt_bool lit_0_2 avg_sentiment then
              [GreatOutlook; SharePositivity]
            else [])
           ++ (if Qlt_bool avg_words (inject_Z 5) then [ExpressYourselfMore]
               else []))%list in
        (db, Sent (BehaviorReport
                     {| br_total := total_messages;
                        br_avg_sentiment := avg_sentiment;
                        br_avg_words := avg_words;
                        br_weekly := weekly;
                        br_above_average := above;
                        br_most_active := most_active;
                        br_activity := activity;
                        br_recommendations := recommendations |}))
    | _, _, _ => (db, Raised TypeError)
    end.

Definition user_stats (now : datetime) (uid : Z) (db : database)
  : database * outcome :=
  let rows := rows_of db uid in
  let total_msgs := sql_count rows in
  let avg_sentiment := mean (map sentiment_score rows) in
  let last_message := sql_max (map timestamp rows) in
  let first_message := sql_min (map timestamp rows) in
  if total_msgs =? 0 then (db, Sent NoDataYet)
  else
    let days_active :=
      match first_message with
      | Some first_msg => timedelta_days now first_msg + 1
      | None => 1
      end in
    if days_active =? 0 then (db, Raised ZeroDivisionError)
    else
      match avg_sentiment with
      | None => (db, Raised TypeError)
      | Some avg =>
          (db, Sent (Statistics
                       {| st_total := total_msgs;
                          st_days_active := days_active;
                          st_per_day :=
                            (inject_Z total_msgs / inject_Z days_active)%Q;
                          st_avg_sentiment := avg;
                          st_category := classify avg;
                          st_last_message := option_map date_of last_message;
                          st_accuracy := Z.min (total_msgs * 5) 95 |}))
      end.

End Bot.

(** ** The wording of the specification, for comparison *)

(** The four buckets as half-open hour intervals: Morning [6,12), Afternoon
    [12,18), Evening [18,22), Night otherwise. *)
Definition bucket_of_hour (h : Z) : period :=
  if (6 <=? h) && (h <? 12) then Morning
  else if (12 <=? h) && (h <? 18) then Afternoon
  else if (18 <=? h) && (h <? 22) then Evening
  else Night.


(** ** Ingesting a message with a fixed sentiment, to build example stores *)

Definition store_message (p : Q) (now : datetime) (uid : Z) (text : string)
    (db : database) : database :=
  fst (analyze_message (fun _ => (p, 0 # 1)) now now uid None "user" text db).

(** The keyword list of a trait, the text [analyze_personality] searches and
    the raw count it finds there for a trait. *)
Definition keywords_of (t : trait) : list string :=
  match find (fun kv => trait_eqb (fst kv) t) personality_indicators with
  | Some kv => snd kv
  | None => []
  end.

Definition window_text (db : database) (uid : Z) : string :=
  Py.join " " (map (fun r => Py.lower (message_text r)) (recent_rows db uid 50)).

Definition raw_count (db : database) (uid : Z) (t : trait) : Z :=
  Py.sum (map (fun kw => Py.count (window_text db uid) kw) (keywords_of t)).



(** ** Example stores *)

(** The messages of [msgs], given as polarity, time and text, ingested in
    turn for user [uid]. *)
Definition store_all (uid : Z) (msgs : list (Q * datetime * string))
    (db : database) : database :=
  fold_left (fun d '(p, t, text) => store_message p t uid text d) msgs db.


(** User 7 wrote four messages on day 10, at 7:00, 14:00, 20:00 and 23:00;
    [five_db] adds a fifth at 9:30. *)
Definition four_db : database :=
  store_all 7
    [(0 # 1, at_time 10 7 0, "one"); (0 # 1, at_time 10 14 0, "two");
     (0 # 1, at_time 10 20 0, "three"); (0 # 1, at_time 10 23 0, "four")]
    setup_database.

Definition five_db : database :=
  store_message (0 # 1) (at_time 10 9 30) 7 "five" four_db.

(** User 7 wrote five messages on day 10, at 12:00, 12:30, 18:00, 22:00 and
    22:59. *)
Definition boundary_db : database :=
  store_all 7
    [(0 # 1, at_time 10 12 0, "a"); (0 # 1, at_time 10 12 30, "b");
     (0 # 1, at_time 10 18 0, "c"); (0 # 1, at_time 10 22 0, "d");
     (0 # 1, at_time 10 22 59, "e")]
    setup_database.

(** User 7 wrote one message, at 23:00 of day 10; in [late_db_other] user 8
    wrote one too. *)
Definition late_db : database :=
  store_message (0 # 1) (at_time 10 23 0) 7 "good night" setup_database.

Definition late_db_other : database :=
  store_message (1 # 2) (at_time 10 23 30) 8 "party with friends" late_db.

(** ** [start_command] and [button_callback] *)

(** The welcome message: the first name it greets and the [callback_data] of
    the buttons under it. *)
Record welcome : Type := {
  wl_first_name : string;
  wl_buttons : list string
}.

Definition start_command (now : datetime) (uid : Z) (uname : option string)
    (fname : string) (db : database) : database * welcome :=
  (register_user now uid uname fname db,
   {| wl_first_name := fname;
      wl_buttons := ["mood"; "personality"; "report"] |}).

(** [button_callback] for the user who pressed the button; [data] is
    [query.data]. *)
Definition button_callback (TextBlob_sentiment : string -> Q * Q)
    (now : datetime) (uid : Z) (data : string) (db : database)
  : database * outcome :=
  if String.eqb data "mood" then mood_analysis TextBlob_sentiment uid db
  else if String.eqb data "personality" then personality_analysis uid db
  else if String.eqb data "report" then generate_report now uid db
  else (db, Nothing).

(** ** The databases the bot can be in *)

(** What the handlers make of the fresh database, one update after another. *)
Inductive reachable (TB : string -> Q * Q) : database -> Prop :=
  | reach_setup : reachable TB setup_database
  | reach_start : forall now uid uname fname db,
      reachable TB db ->
      reachable TB (fst (start_command now uid uname fname db))
  | reach_message : forall now_reg now_msg uid uname fname text db,
      reachable TB db ->
      reachable TB
        (fst (analyze_message TB now_reg now_msg uid uname fname text db))
  | reach_mood : forall uid db,
      reachable TB db -> reachable TB (fst (mood_analysis TB uid db))
  | reach_personality : forall uid db,
      reachable TB db -> reachable TB (fst (personality_analysis uid db))
  | reach_report : forall now uid db,
      reachable TB db -> reachable TB (fst (generate_report now uid db))
  | reach_stats : forall now uid db,
      reachable TB db -> reachable TB (fst (user_stats now uid db))
  | reach_button : forall now uid data db,
      reachable TB db -> reachable TB (fst (button_callback TB now uid data db)).

(** The user ids are a key of [users]; every counter is the number of the
    user's messages; every message belongs to a registered user; the ids of
    the messages count from 1 in table order. *)
Record store_ok (db : database) : Prop := {
  ok_users_key : NoDup (map u_user_id (users db));
  ok_counters : forall u, In u (users db) ->
                          total_messages u = sql_count (rows_of db (u_user_id u));
  ok_foreign_key : forall r, In r (messages db) ->
                             In (user_id r) (map u_user_id (users db));
  ok_ids : map id (messages db)
           = map Z.of_nat (seq 1 (List.length (messages db)))
}.


(** The two writes of [analyze_message]: the row it inserts and the counter
    update it applies to each row of [users]. *)
Definition ingested_row (TB : string -> Q * Q) (now_msg : datetime) (uid : Z)
    (text : string) (db : database) : message_row :=
  {| id := sql_count (messages db) + 1; user_id := uid;
     message_text := text; timestamp := now_msg;
     sentiment_score := fst (TB text);
     word_count := Py.len_split text |}.

Definition bump_counter (uid : Z) (u : user_row) : user_row :=
  if u_user_id u =? uid then
    {| u_user_id := u_user_id u; username := username u;
       first_name := first_name u;
       registration_date := registration_date u;
       total_messages := total_messages u + 1 |}
  else u.


(** * Properties *)

(** ** Strings *)



Lemma count_from_nonneg (sub s : string) (skip : nat) :
  0 <= Py.count_from sub skip s.
Proof.
  revert skip; induction s as [|c s IH]; intros skip; cbn [Py.count_from].
  - destruct skip; [destruct (prefix sub "")|]; lia.
  - destruct skip as [|k]; [|apply IH].
    destruct (prefix sub (String c s)).
    + specialize (IH (Nat.pred (String.length sub))); lia.
    + apply IH.
Qed.

Lemma sum_nonneg (xs : list Z) :
  Forall (fun x => 0 <= x) xs -> 0 <= Py.sum xs.
Proof.
  induction 1 as [|x xs Hx _ IH]; simpl; lia.
Qed.




(** ** The stress detector *)





(** ** The sentiment scorer *)

Lemma Qlt_bool_iff (x y : Q) : Qlt_bool x y = true <-> (x < y)%Q.
Proof.
  unfold Qlt_bool; rewrite negb_true_iff.
  destruct (Qle_bool y x) eqn:E; split; intros H; try discriminate; auto.
  - apply Qle_bool_iff in E; exfalso; exact (Qlt_not_le _ _ H E).
  - apply Qnot_le_lt; intros Hle; apply Qle_bool_iff in Hle; congruence.
Qed.

Lemma Qlt_bool_false_iff (x y : Q) : Qlt_bool x y = false <-> (y <= x)%Q.
Proof.
  unfold Qlt_bool; rewrite negb_false_iff; apply Qle_bool_iff.
Qed.

Lemma classify_cases (p : Q) :
  (classify p = Positive <-> (lit_0_1 < p)%Q) /\
  (classify p = Negative <-> (p < - lit_0_1)%Q) /\
  (classify p = Neutral <-> (- lit_0_1 <= p <= lit_0_1)%Q).
Proof.
  assert (Hlit : (- lit_0_1 < lit_0_1)%Q) by reflexivity.
  unfold classify.
  destruct (Qlt_bool lit_0_1 p) eqn:E1;
    [apply Qlt_bool_iff in E1 | apply Qlt_bool_false_iff in E1].
  - repeat split; intros; try discriminate; auto.
    + exfalso; apply (Qlt_irrefl p).
      eapply Qlt_trans; [eassumption|]. eapply Qlt_trans; eassumption.
    + exfalso; destruct H as [_ H]; exact (Qlt_not_le _ _ E1 H).
  - destruct (Qlt_bool p (- lit_0_1)) eqn:E2;
      [apply Qlt_bool_iff in E2 | apply Qlt_bool_false_iff in E2].
    + repeat split; intros; try discriminate; auto.
      * exfalso; exact (Qlt_not_le _ _ H E1).
      * exfalso; destruct H as [H _]; exact (Qlt_not_le _ _ E2 H).
    + repeat split; intros; try discriminate; auto.
      * exfalso; exact (Qlt_not_le _ _ H E1).
      * exfalso; exact (Qlt_not_le _ _ H E2).
Qed.

Lemma analyze_sentiment_classify (TB : string -> Q * Q) (text : string) :
  mood_label (analyze_sentiment TB text)
  = classify (polarity (analyze_sentiment TB text)).
Proof.
  unfold analyze_sentiment, classify; destruct (TB text); reflexivity.
Qed.

(** C5. Whatever the sentiment primitive returns for a text, the scorer
    reports that polarity, its absolute value as the confidence, and the mood
    Positive exactly when the polarity is above the literal 0.1, Negative
    exactly when it is below -0.1 and Neutral exactly in between, the two
    boundary values included. *)
Theorem sentiment_confidence_and_mood :
  forall (TB : string -> Q * Q) (text : string),
  let s := analyze_sentiment TB text in
  polarity s = fst (TB text) /\
  subjectivity s = snd (TB text) /\
  confidence s = Qabs (polarity s) /\
  (mood_label s = Positive <-> (lit_0_1 < polarity s)%Q) /\
  (mood_label s = Negative <-> (polarity s < - lit_0_1)%Q) /\
  (mood_label s = Neutral <-> (- lit_0_1 <= polarity s <= lit_0_1)%Q) /\
  (forall sub, mood_label (analyze_sentiment (fun _ => (lit_0_1, sub)) text)
               = Neutral) /\
  (forall sub, mood_label (analyze_sentiment (fun _ => ((- lit_0_1)%Q, sub)) text)
               = Neutral).
Proof.
  intros TB text s; subst s.
  rewrite analyze_sentiment_classify.
  pose proof (classify_cases (polarity (analyze_sentiment TB text)))
    as (Hp & Hn & Hz).
  unfold analyze_sentiment at 1 2 3 4.
  destruct (TB text) as [p sub]; simpl.
  repeat split; try apply Hp; try apply Hn; try apply Hz; auto.
Qed.

(** ** The trait scorer *)

Lemma count_nonneg (s sub : string) : 0 <= Py.count s sub.
Proof. apply count_from_nonneg. Qed.

Lemma raw_count_nonneg (db : database) (uid : Z) (t : trait) :
  0 <= raw_count db uid t.
Proof.
  unfold raw_count; apply sum_nonneg.
  apply Forall_forall; intros x Hx.
  apply in_map_iff in Hx as [kw [<- _]]; apply count_nonneg.
Qed.

Lemma analyze_personality_scores (db : database) (uid : Z) :
  analyze_personality db uid
  = map (fun t => (t, Z.min (5 * raw_count db uid t) 100))
        [extraversion; openness; conscientiousness; agreeableness; neuroticism].
Proof.
  unfold analyze_personality, raw_count, window_text, personality_indicators.
  cbn [map keywords_of find fst snd trait_eqb personality_indicators].
  repeat (f_equal; try (rewrite Z.mul_comm; reflexivity)).
Qed.





(** ** The personality report *)



Lemma empty_window_scores (db : database) (uid : Z) :
  recent_rows db uid 50 = [] ->
  analyze_personality db uid
  = map (fun t => (t, 0))
        [extraversion; openness; conscientiousness; agreeableness; neuroticism].
Proof.
  intros H; unfold analyze_personality; rewrite H; reflexivity.
Qed.

Lemma personality_analysis_fst (uid : Z) (db : database) :
  fst (personality_analysis uid db) = db.
Proof.
  unfold personality_analysis.
  destruct (negb _); [reflexivity|].
  destruct (analyze_personality db uid) as [|kv rest]; [reflexivity|].
  repeat match goal with
         | |- context [match ?x with Some _ => _ | None => _ end] => destruct x
         end; reflexivity.
Qed.

(** C9. The personality report answers that it needs more messages exactly
    when the five trait scores are all zero, which is the case for a user
    with an empty window; otherwise it sends the assessment, whose five lines
    carry the scores and are not all zero.  The database is left as it was. *)
Theorem personality_needs_nonzero : forall (uid : Z) (db : database),
  let scores := analyze_personality db uid in
  let out := personality_analysis uid db in
  fst out = db /\
  map fst scores
  = [extraversion; openness; conscientiousness; agreeableness; neuroticism] /\
  (snd out = Sent NeedMoreForPersonality <->
   Forall (fun kv => snd kv = 0) scores) /\
  (snd out = Sent NeedMoreForPersonality \/
   exists r, snd out = Sent (PersonalityAnalysis r) /\
             map (fun l => (tl_trait l, tl_score l)) (pr_lines r) = scores /\
             Exists (fun l => tl_score l <> 0) (pr_lines r)) /\
  (recent_rows db uid 50 = [] -> snd out = Sent NeedMoreForPersonality).
Proof.
  intros uid db scores out; subst scores out.
  split; [apply personality_analysis_fst|].
  split; [rewrite analyze_personality_scores; reflexivity|].
  assert (Hmain :
    (snd (personality_analysis uid db) = Sent NeedMoreForPersonality /\
     Forall (fun kv => snd kv = 0) (analyze_personality db uid)) \/
    (exists r, snd (personality_analysis uid db) = Sent (PersonalityAnalysis r) /\
               map (fun l => (tl_trait l, tl_score l)) (pr_lines r)
               = analyze_personality db uid /\
               Exists (fun l => tl_score l <> 0) (pr_lines r))).
  { unfold personality_analysis.
    rewrite analyze_personality_scores; cbn [map].
    set (e := Z.min (5 * raw_count db uid extraversion) 100).
    set (o := Z.min (5 * raw_count db uid openness) 100).
    set (c := Z.min (5 * raw_count db uid conscientiousness) 100).
    set (a := Z.min (5 * raw_count db uid agreeableness) 100).
    set (n := Z.min (5 * raw_count db uid neuroticism) 100).
    clearbody e o c a n.
    cbn [map existsb snd fst score_of find trait_eqb option_map max_by_score].
    destruct (Z.eqb_spec e 0) as [He|He];
    destruct (Z.eqb_spec o 0) as [Ho|Ho];
    destruct (Z.eqb_spec c 0) as [Hc|Hc];
    destruct (Z.eqb_spec a 0) as [Ha|Ha];
    destruct (Z.eqb_spec n 0) as [Hn|Hn];
    cbn [negb orb andb snd fst];
    try (left; split; [reflexivity | repeat constructor; assumption]);
    right; eexists; (split; [reflexivity|]); (split; [reflexivity|]);
    cbn [pr_lines];
    first [ apply Exists_cons_hd; assumption
          | apply Exists_cons_tl, Exists_cons_hd; assumption
          | do 2 apply Exists_cons_tl; apply Exists_cons_hd; assumption
          | do 3 apply Exists_cons_tl; apply Exists_cons_hd; assumption
          | do 4 apply Exists_cons_tl; apply Exists_cons_hd; assumption ]. }
  split; [|split].
  - destruct Hmain as [[H1 H2] | [r [H1 [H2 H3]]]].
    + split; auto.
    + rewrite H1; split; [discriminate|].
      intros Hall; exfalso.
      rewrite <- H2 in Hall.
      apply Exists_exists in H3 as [l [Hin Hne]]; apply Hne.
      rewrite Forall_forall in Hall.
      apply (Hall (tl_trait l, tl_score l)).
      apply in_map_iff; exists l; auto.
  - destruct Hmain as [[H1 _] | [r H]]; [left; exact H1 | right; exists r; exact H].
  - intros Hw; unfold personality_analysis.
    rewrite (empty_window_scores db uid Hw); reflexivity.
Qed.

(** A witness of C9: user 9 has no message in [late_db]. *)
Lemma personality_needs_nonzero_witness :
  recent_rows late_db 9 50 = [] /\
  snd (personality_analysis 9 late_db) = Sent NeedMoreForPersonality.
Proof.
  split; [reflexivity|].
  apply (personality_needs_nonzero 9 late_db); reflexivity.
Defined.

(** ** [ORDER BY] *)

Section OrderByFacts.
Context {A : Type}.
Variable before : A -> A -> bool.
Hypothesis before_total : forall x y, before x y = false -> before y x = true.
Hypothesis before_trans :
  forall x y z, before x y = true -> before y z = true -> before x z = true.

Lemma insert_row_perm (x : A) (l : list A) :
  Permutation (insert_row before x l) (x :: l).
Proof.
  induction l as [|y l IH]; simpl; [reflexivity|].
  destruct (before x y); [reflexivity|].
  rewrite IH; apply perm_swap.
Qed.

Lemma order_by_perm (l : list A) : Permutation (order_by before l) l.
Proof.
  induction l as [|x l IH]; simpl; [reflexivity|].
  rewrite insert_row_perm; now constructor.
Qed.



End OrderByFacts.









Lemma recent_rows_length (db : database) (uid : Z) (n : nat) :
  List.length (recent_rows db uid n)
  = Nat.min n (List.length (rows_of db uid)).
Proof.
  unfold recent_rows, newest_first; rewrite length_firstn.
  f_equal; apply Permutation_length, order_by_perm.
Qed.

(** ** The mood report *)





(** ** The comprehensive report *)

Lemma insert_key_in (d k : Z) (l : list Z) :
  In d (insert_key k l) -> d = k \/ In d l.
Proof.
  induction l as [|y l IH]; simpl.
  - intros [<- | []]; now left.
  - destruct (k <? y); [intros [<- | H]; auto|].
    destruct (k =? y); [auto|].
    intros [<- | H]; [right; now left|].
    destruct (IH H); auto.
Qed.

Lemma group_keys_in (d : Z) (ks : list Z) : In d (group_keys ks) -> In d ks.
Proof.
  induction ks as [|k ks IH]; simpl; [auto|].
  intros H; apply insert_key_in in H as [-> | H]; auto.
Qed.

Lemma daily_data_means (rows : list message_row) (week_ago : datetime) :
  Forall (fun x => snd (fst x) <> None) (daily_data rows week_ago).
Proof.
  unfold daily_data.
  set (recent := filter _ rows).
  apply Forall_forall; intros x Hx.
  apply in_map_iff in Hx as [d [<- Hd]]; cbn [fst snd].
  apply group_keys_in, in_map_iff in Hd as [r [Hr Hin]].
  assert (Hday : In r (filter (fun r => date_of (timestamp r) =? d) recent)).
  { apply filter_In; split; [assumption | now apply Z.eqb_eq]. }
  destruct (filter _ recent); [destruct Hday | discriminate].
Qed.

Lemma weekly_lines_some (data : list (Z * option Q * Z)) :
  Forall (fun x => snd (fst x) <> None) data ->
  exists lines, weekly_lines data = Some lines.
Proof.
  induction 1 as [|[[d m] c] data Hx _ [lines IH]]; simpl.
  - now exists [].
  - destruct m as [m|]; [|now elim Hx].
    rewrite IH; eexists; reflexivity.
Qed.

Lemma generate_report_cases (now : datetime) (uid : Z) (db : database) :
  let n := sql_count (rows_of db uid) in
  (n < 5 /\ generate_report now uid db = (db, Sent NeedFiveMessages)) \/
  (5 <= n /\
   exists r, generate_report now uid db = (db, Sent (BehaviorReport r)) /\
             br_total r = n /\
             map (fun l => (pl_period l, pl_count l)) (br_activity r)
             = time_patterns (rows_of db uid) /\
             br_most_active r
             = option_map fst (hd_error (time_patterns (rows_of db uid)))).
Proof.
  intros n; subst n; unfold generate_report.
  destruct (Z.ltb_spec (sql_count (rows_of db uid)) 5) as [Hlt | Hge];
    [left; split; [assumption | reflexivity]|].
  right; split; [assumption|].
  destruct (weekly_lines_some _
              (daily_data_means (rows_of db uid) (minus_days now 7)))
    as [weekly ->].
  destruct (rows_of db uid) as [|row rows] eqn:R;
    [exfalso; cbn in Hge; lia|].
  cbn [map mean].
  eexists; split; [reflexivity|].
  cbn [br_total br_activity br_most_active].
  split; [reflexivity|].
  split.
  - rewrite map_map.
    rewrite <- (map_id (time_patterns (row :: rows))) at 2.
    apply map_ext; intros [p c]; reflexivity.
  - destruct (time_patterns (row :: rows)) as [|[p c] l]; reflexivity.
Qed.


Lemma hour_of_range (t : datetime) : 0 <= hour_of t < 24.
Proof. unfold hour_of; apply Z.mod_pos_bound; lia. Qed.

(** C1. The activity query and the four half-open buckets of the
    specification disagree exactly at the hours 12, 18 and 22: the query puts
    12:00 in Morning, 18:00 in Afternoon and 22:00 in Evening.  For a user
    with messages at 12:00, 12:30, 18:00, 22:00 and 22:59 the report counts
    Morning 2, Afternoon 1, Evening 2 and no Night, where the buckets give
    Afternoon 2, Evening 1, Night 2. *)
Theorem time_period_boundary_hours : forall (t now : datetime),
  (time_period t <> bucket_of_hour (hour_of t) <->
   hour_of t = 12 \/ hour_of t = 18 \/ hour_of t = 22) /\
  (hour_of (at_time 10 12 0) = 12 /\
   time_period (at_time 10 12 0) = Morning /\ bucket_of_hour 12 = Afternoon) /\
  (hour_of (at_time 10 18 0) = 18 /\
   time_period (at_time 10 18 0) = Afternoon /\ bucket_of_hour 18 = Evening) /\
  (hour_of (at_time 10 22 0) = 22 /\
   time_period (at_time 10 22 0) = Evening /\ bucket_of_hour 22 = Night) /\
  map (fun r => bucket_of_hour (hour_of (timestamp r))) (rows_of boundary_db 7)
  = [Afternoon; Afternoon; Evening; Night; Night] /\
  exists r,
    generate_report now 7 boundary_db = (boundary_db, Sent (BehaviorReport r)) /\
    (forall p c, In (p, c) (map (fun l => (pl_period l, pl_count l))
                                (br_activity r)) <->
                 (p, c) = (Morning, 2) \/ (p, c) = (Afternoon, 1) \/
                 (p, c) = (Evening, 2)).
Proof.
  intros t now.
  split.
  { pose proof (hour_of_range t) as Hh.
    unfold time_period.
    set (h := hour_of t) in *; clearbody h.
    assert (Hc : h = 0 \/ h = 1 \/ h = 2 \/ h = 3 \/ h = 4 \/ h = 5 \/ h = 6 \/
                 h = 7 \/ h = 8 \/ h = 9 \/ h = 10 \/ h = 11 \/ h = 12 \/
                 h = 13 \/ h = 14 \/ h = 15 \/ h = 16 \/ h = 17 \/ h = 18 \/
                 h = 19 \/ h = 20 \/ h = 21 \/ h = 22 \/ h = 23) by lia.
    repeat (destruct Hc as [-> | Hc]); [..| subst h];
      cbn; (split; intros H);
      try discriminate; try lia; try (exfalso; apply H; reflexivity);
      try (exfalso; lia). }
  do 4 (split; [repeat split; reflexivity|]).
  destruct (generate_report_cases now 7 boundary_db)
    as [[H _] | [_ (r & Hout & _ & Hact & _)]]; [vm_compute in H; discriminate|].
  exists r; split; [exact Hout|].
  rewrite Hact; intros p c.
  change (time_patterns (rows_of boundary_db 7))
    with [(Evening, 2); (Morning, 2); (Afternoon, 1)].
  simpl; intuition congruence.
Qed.

(** ** The statistics report *)






Lemma user_stats_cases (now : datetime) (uid : Z) (db : database) :
  (rows_of db uid = [] /\ user_stats now uid db = (db, Sent NoDataYet)) \/
  (exists first avg,
     sql_min (map timestamp (rows_of db uid)) = Some first /\
     mean (map sentiment_score (rows_of db uid)) = Some avg /\
     user_stats now uid db
     = if timedelta_days now first + 1 =? 0 then (db, Raised ZeroDivisionError)
       else (db, Sent (Statistics
              {| st_total := sql_count (rows_of db uid);
                 st_days_active := timedelta_days now first + 1;
                 st_per_day :=
                   (inject_Z (sql_count (rows_of db uid))
                    / inject_Z (timedelta_days now first + 1))%Q;
                 st_avg_sentiment := avg;
                 st_category := classify avg;
                 st_last_message :=
                   option_map date_of
                     (sql_max (map timestamp (rows_of db uid)));
                 st_accuracy := Z.min (sql_count (rows_of db uid) * 5) 95 |}))).
Proof.
  unfold user_stats.
  destruct (rows_of db uid) as [|row rows]; [left; split; reflexivity|].
  right; eexists; eexists.
  split; [reflexivity|]; split; [reflexivity|].
  replace (sql_count (row :: rows) =? 0) with false; [reflexivity|].
  symmetry; apply Z.eqb_neq; unfold sql_count; cbn [List.length]; lia.
Qed.




(** ** Recomputing a report *)

Lemma mood_analysis_fst (TB : string -> Q * Q) (uid : Z) (db : database) :
  fst (mood_analysis TB uid db) = db.
Proof.
  unfold mood_analysis; destruct (recent_rows db uid 20); reflexivity.
Qed.

Lemma generate_report_fst (now : datetime) (uid : Z) (db : database) :
  fst (generate_report now uid db) = db.
Proof.
  destruct (generate_report_cases now uid db) as [[_ H] | [_ (r & H & _)]];
    now rewrite H.
Qed.

Lemma user_stats_fst (now : datetime) (uid : Z) (db : database) :
  fst (user_stats now uid db) = db.
Proof.
  destruct (user_stats_cases now uid db) as [[_ H] | (f & a & _ & _ & H)];
    rewrite H; [reflexivity|].
  destruct (_ =? 0); reflexivity.
Qed.

Lemma mood_analysis_window_only (TB : string -> Q * Q) (uid : Z)
    (db db' : database) :
  recent_rows db uid 20 = recent_rows db' uid 20 ->
  snd (mood_analysis TB uid db) = snd (mood_analysis TB uid db').
Proof.
  intros H; unfold mood_analysis; rewrite H.
  destruct (recent_rows db' uid 20); reflexivity.
Qed.

Lemma personality_analysis_window_only (uid : Z) (db db' : database) :
  recent_rows db uid 50 = recent_rows db' uid 50 ->
  snd (personality_analysis uid db) = snd (personality_analysis uid db').
Proof.
  intros H.
  assert (E : analyze_personality db uid = analyze_personality db' uid)
    by (unfold analyze_personality; now rewrite H).
  unfold personality_analysis; rewrite E.
  destruct (negb _); [reflexivity|].
  destruct (analyze_personality db' uid); [reflexivity|].
  repeat match goal with
         | |- context [match ?x with Some _ => _ | None => _ end] => destruct x
         end; reflexivity.
Qed.

Lemma generate_report_rows_only (now : datetime) (uid : Z) (db db' : database) :
  rows_of db uid = rows_of db' uid ->
  snd (generate_report now uid db) = snd (generate_report now uid db').
Proof.
  intros H.
  assert (E : analyze_personality db uid = analyze_personality db' uid)
    by (unfold analyze_personality, recent_rows, newest_first; now rewrite H).
  unfold generate_report; rewrite E, H.
  destruct (_ <? 5); [reflexivity|].
  repeat match goal with
         | |- context [match ?x with Some _ => _ | None => _ end] => destruct x
         end; reflexivity.
Qed.

Lemma user_stats_rows_only (now : datetime) (uid : Z) (db db' : database) :
  rows_of db uid = rows_of db' uid ->
  snd (user_stats now uid db) = snd (user_stats now uid db').
Proof.
  intros H; unfold user_stats; rewrite H.
  destruct (_ =? 0); [reflexivity|].
  destruct (_ =? 0); [reflexivity|].
  destruct (mean _); reflexivity.
Qed.

(** C8, as the code has it.  No report handler changes the database.  The
    reply of the mood report is determined by the window of the 20 most recent
    messages and that of the personality report by the window of 50; the
    replies of the comprehensive and statistics reports are determined by the
    user's messages together with the clock reading.  So a report computed
    again on the database the first computation returned, at the same clock
    reading, is the same reply. *)
Theorem reports_repeatable :
  forall (TB : string -> Q * Q) (now : datetime) (uid : Z) (db db' : database),
  (fst (mood_analysis TB uid db) = db /\
   fst (personality_analysis uid db) = db /\
   fst (generate_report now uid db) = db /\
   fst (user_stats now uid db) = db) /\
  (snd (mood_analysis TB uid (fst (mood_analysis TB uid db)))
   = snd (mood_analysis TB uid db) /\
   snd (personality_analysis uid (fst (personality_analysis uid db)))
   = snd (personality_analysis uid db) /\
   snd (generate_report now uid (fst (generate_report now uid db)))
   = snd (generate_report now uid db) /\
   snd (user_stats now uid (fst (user_stats now uid db)))
   = snd (user_stats now uid db)) /\
  (recent_rows db uid 20 = recent_rows db' uid 20 ->
   snd (mood_analysis TB uid db) = snd (mood_analysis TB uid db')) /\
  (recent_rows db uid 50 = recent_rows db' uid 50 ->
   snd (personality_analysis uid db) = snd (personality_analysis uid db')) /\
  (rows_of db uid = rows_of db' uid ->
   snd (generate_report now uid db) = snd (generate_report now uid db') /\
   snd (user_stats now uid db) = snd (user_stats now uid db')).
Proof.
  intros TB now uid db db'.
  split; [|split].
  - repeat split;
      [ apply mood_analysis_fst | apply personality_analysis_fst
      | apply generate_report_fst | apply user_stats_fst ].
  - rewrite mood_analysis_fst, personality_analysis_fst,
      generate_report_fst, user_stats_fst.
    repeat split.
  - split; [apply mood_analysis_window_only|].
    split; [apply personality_analysis_window_only|].
    intros H; split;
      [now apply generate_report_rows_only | now apply user_stats_rows_only].
Qed.

(** A witness of C8: the database with one message of user 7 and the one
    where user 8 has written too give user 7 the same reports. *)
Lemma reports_repeatable_witness :
  late_db <> late_db_other /\
  rows_of late_db 7 = rows_of late_db_other 7 /\
  snd (mood_analysis (fun _ => (0 # 1, 0 # 1)) 7 late_db)
  = snd (mood_analysis (fun _ => (0 # 1, 0 # 1)) 7 late_db_other) /\
  snd (personality_analysis 7 late_db)
  = snd (personality_analysis 7 late_db_other) /\
  snd (generate_report (at_time 11 1 0) 7 late_db)
  = snd (generate_report (at_time 11 1 0) 7 late_db_other) /\
  snd (user_stats (at_time 11 1 0) 7 late_db)
  = snd (user_stats (at_time 11 1 0) 7 late_db_other).
Proof.
  split; [discriminate|].
  split; [reflexivity|].
  destruct (reports_repeatable (fun _ => (0 # 1, 0 # 1)) (at_time 11 1 0) 7
              late_db late_db_other) as (_ & _ & Hm & Hp & Hr).
  split; [apply Hm; reflexivity|].
  split; [apply Hp; reflexivity|].
  apply Hr; reflexivity.
Defined.

(** C8 as stated fails for the two reports that read the clock: on the same
    database the statistics report of the next day counts one more day
    active, and the comprehensive report of three weeks later has lost its
    weekly summary. *)
Lemma reports_depend_on_clock :
  fst (user_stats (at_time 11 1 0) 7 late_db) = late_db /\
  snd (user_stats (at_time 12 1 0) 7 (fst (user_stats (at_time 11 1 0) 7 late_db)))
  <> snd (user_stats (at_time 11 1 0) 7 late_db) /\
  fst (generate_report (at_time 11 1 0) 7 five_db) = five_db /\
  snd (generate_report (at_time 32 1 0) 7
         (fst (generate_report (at_time 11 1 0) 7 five_db)))
  <> snd (generate_report (at_time 11 1 0) 7 five_db).
Proof.
  split; [reflexivity|].
  split; [vm_compute; discriminate|].
  split; [reflexivity|].
  vm_compute; discriminate.
Qed.

(** * Further properties of the handlers *)

(** ** [register_user] *)

Lemma registered_iff (uid : Z) (us : list user_row) :
  existsb (fun u => u_user_id u =? uid) us = true
  <-> In uid (map u_user_id us).
Proof.
  rewrite existsb_exists, in_map_iff; split; intros [u [H1 H2]]; exists u.
  - apply Z.eqb_eq in H2; auto.
  - split; [assumption | now apply Z.eqb_eq].
Qed.

Lemma register_user_messages (now : datetime) (uid : Z) (un : option string)
    (fn : string) (db : database) :
  messages (register_user now uid un fn db) = messages db.
Proof. unfold register_user; destruct (existsb _ _); reflexivity. Qed.

Lemma register_user_known (now : datetime) (uid : Z) (un : option string)
    (fn : string) (db : database) :
  In uid (map u_user_id (users db)) -> register_user now uid un fn db = db.
Proof.
  intros H; apply registered_iff in H.
  unfold register_user; now rewrite H.
Qed.

Lemma register_user_new (now : datetime) (uid : Z) (un : option string)
    (fn : string) (db : database) :
  ~ In uid (map u_user_id (users db)) ->
  users (register_user now uid un fn db)
  = (users db ++ [ {| u_user_id := uid; username := un; first_name := fn;
                      registration_date := now; total_messages := 0 |} ])%list.
Proof.
  intros H; unfold register_user.
  destruct (existsb _ _) eqn:E; [|reflexivity].
  apply registered_iff in E; contradiction.
Qed.

Lemma register_user_registered (now : datetime) (uid : Z) (un : option string)
    (fn : string) (db : database) :
  In uid (map u_user_id (users (register_user now uid un fn db))).
Proof.
  unfold register_user.
  destruct (existsb _ _) eqn:E; [now apply registered_iff|].
  cbn [users]; rewrite map_app; apply in_or_app; right; now left.
Qed.

Lemma in_dec_ids (uid : Z) (us : list user_row) :
  In uid (map u_user_id us) \/ ~ In uid (map u_user_id us).
Proof.
  destruct (existsb (fun u => u_user_id u =? uid) us) eqn:E.
  - left; now apply registered_iff.
  - right; intros H; apply registered_iff in H; congruence.
Qed.

(** X1. [register_user] is INSERT OR IGNORE: for a user id already in the
    table it changes nothing, whatever the names passed; for a new id it
    appends one row with the names, the clock reading and a counter of 0.  It
    never touches the messages nor a row already there, the id is registered
    afterwards, and registering again is without effect. *)
Theorem register_user_insert_or_ignore :
  forall (now now' : datetime) (uid : Z) (un un' : option string)
         (fn fn' : string) (db : database),
  let db' := register_user now uid un fn db in
  messages db' = messages db /\
  (In uid (map u_user_id (users db)) /\ db' = db \/
   ~ In uid (map u_user_id (users db)) /\
   users db'
   = (users db ++ [ {| u_user_id := uid; username := un; first_name := fn;
                       registration_date := now; total_messages := 0 |} ])%list) /\
  (forall u, In u (users db) -> In u (users db')) /\
  In uid (map u_user_id (users db')) /\
  register_user now' uid un' fn' db' = db'.
Proof.
  intros now now' uid un un' fn fn' db db'; subst db'.
  split; [apply register_user_messages|].
  split.
  { destruct (in_dec_ids uid (users db)) as [H | H].
    - left; split; [assumption | now apply register_user_known].
    - right; split; [assumption | now apply register_user_new]. }
  split.
  { intros u Hu.
    destruct (in_dec_ids uid (users db)) as [H | H].
    - now rewrite register_user_known.
    - rewrite register_user_new by assumption; apply in_or_app; now left. }
  split; [apply register_user_registered|].
  apply register_user_known, register_user_registered.
Qed.

(** ** [analyze_message] *)

Lemma bump_counter_id (uid : Z) (u : user_row) :
  u_user_id (bump_counter uid u) = u_user_id u.
Proof. unfold bump_counter; destruct (_ =? _); reflexivity. Qed.

Lemma map_bump_ids (uid : Z) (us : list user_row) :
  map u_user_id (map (bump_counter uid) us) = map u_user_id us.
Proof.
  rewrite map_map; apply map_ext; intros u; apply bump_counter_id.
Qed.

Lemma find_bump (uid : Z) (us : list user_row) :
  find (fun u => u_user_id u =? uid) (map (bump_counter uid) us)
  = option_map (bump_counter uid) (find (fun u => u_user_id u =? uid) us).
Proof.
  induction us as [|u us IH]; [reflexivity|].
  cbn [map find]; rewrite bump_counter_id.
  destruct (u_user_id u =? uid); [reflexivity | exact IH].
Qed.

Lemma find_registered (uid : Z) (us : list user_row) :
  In uid (map u_user_id us) ->
  exists u, find (fun u => u_user_id u =? uid) us = Some u /\
            In u us /\ u_user_id u = uid.
Proof.
  intros H; apply registered_iff in H.
  destruct (find (fun u => u_user_id u =? uid) us) as [u|] eqn:E.
  - exists u; split; [reflexivity|].
    apply find_some in E as [H1 H2]; apply Z.eqb_eq in H2; auto.
  - apply existsb_exists in H as [u [H1 H2]].
    pose proof (find_none _ _ E u H1) as H3; cbv beta in H3; congruence.
Qed.

Lemma analyze_message_store (TB : string -> Q * Q) (now_reg now_msg : datetime)
    (uid : Z) (un : option string) (fn text : string) (db : database) :
  fst (analyze_message TB now_reg now_msg uid un fn text db)
  = {| users := map (bump_counter uid)
                    (users (register_user now_reg uid un fn db));
       messages := (messages db ++ [ingested_row TB now_msg uid text db])%list |}.
Proof.
  unfold analyze_message, ingested_row.
  rewrite register_user_messages.
  assert (E : polarity (analyze_sentiment TB text) = fst (TB text))
    by (unfold analyze_sentiment; destruct (TB text); reflexivity).
  rewrite E.
  match goal with
  | |- fst (match ?x with Some _ => _ | None => _ end) = _ => destruct x
  end; [|reflexivity].
  destruct (_ =? 0); reflexivity.
Qed.

Lemma rows_of_append (us us' : list user_row) (ms : list message_row)
    (row : message_row) (x : Z) :
  rows_of {| users := us'; messages := (ms ++ [row])%list |} x
  = (rows_of {| users := us; messages := ms |} x
     ++ (if user_id row =? x then [row] else []))%list.
Proof.
  unfold rows_of; cbn [messages]; rewrite filter_app; reflexivity.
Qed.

Lemma rows_of_messages (db db' : database) (x : Z) :
  messages db = messages db' -> rows_of db x = rows_of db' x.
Proof. unfold rows_of; now intros ->. Qed.

Lemma sql_count_app {A : Type} (l l' : list A) :
  sql_count (l ++ l') = sql_count l + sql_count l'.
Proof. unfold sql_count; rewrite length_app; lia. Qed.

Lemma rows_of_unregistered (db : database) (uid : Z) :
  (forall r, In r (messages db) -> In (user_id r) (map u_user_id (users db))) ->
  ~ In uid (map u_user_id (users db)) ->
  rows_of db uid = [].
Proof.
  intros Hfk Hnot; unfold rows_of.
  destruct (filter _ (messages db)) as [|r l] eqn:E; [reflexivity|].
  assert (Hr : In r (filter (fun r => user_id r =? uid) (messages db)))
    by (rewrite E; now left).
  apply filter_In in Hr as [Hin Heq]; apply Z.eqb_eq in Heq.
  exfalso; apply Hnot; rewrite <- Heq; now apply Hfk.
Qed.

Lemma register_user_ok (now : datetime) (uid : Z) (un : option string)
    (fn : string) (db : database) :
  store_ok db -> store_ok (register_user now uid un fn db).
Proof.
  intros [Hkey Hcnt Hfk Hids].
  destruct (in_dec_ids uid (users db)) as [H | H];
    [rewrite register_user_known by assumption; now constructor|].
  pose proof (register_user_new now uid un fn db H) as Hus.
  pose proof (register_user_messages now uid un fn db) as Hms.
  constructor.
  - rewrite Hus, map_app; cbn [map].
    apply NoDup_app.
    + assumption.
    + repeat constructor; intros [].
    + intros x Hx [<- | []]; contradiction.
  - intros u Hu; rewrite (rows_of_messages _ db _ Hms).
    rewrite Hus in Hu; apply in_app_or in Hu as [Hu | [<- | []]]; [auto|].
    cbn [total_messages u_user_id].
    now rewrite (rows_of_unregistered db uid Hfk H).
  - intros r Hr; rewrite Hms in Hr.
    rewrite Hus, map_app; apply in_or_app; left; auto.
  - now rewrite Hms.
Qed.

Lemma analyze_message_ok (TB : string -> Q * Q) (now_reg now_msg : datetime)
    (uid : Z) (un : option string) (fn text : string) (db : database) :
  store_ok db ->
  store_ok (fst (analyze_message TB now_reg now_msg uid un fn text db)).
Proof.
  intros Hok; rewrite analyze_message_store.
  pose proof (register_user_ok now_reg uid un fn db Hok) as [Hkey Hcnt Hfk Hids].
  pose proof (register_user_messages now_reg uid un fn db) as Hms.
  set (db1 := register_user now_reg uid un fn db) in *.
  constructor; cbn [users messages].
  - now rewrite map_bump_ids.
  - intros u' Hu'; apply in_map_iff in Hu' as [u [<- Hu]].
    rewrite bump_counter_id.
    rewrite (rows_of_append (users db) _ (messages db)), sql_count_app.
    specialize (Hcnt u Hu).
    rewrite (rows_of_messages db1 {| users := users db; messages := messages db |})
      in Hcnt by exact Hms.
    unfold bump_counter; cbn [ingested_row user_id].
    rewrite (Z.eqb_sym uid).
    destruct (u_user_id u =? uid); cbn [total_messages]; rewrite Hcnt;
      unfold sql_count; cbn [List.length]; lia.
  - intros r Hr; rewrite map_bump_ids.
    apply in_app_or in Hr as [Hr | [<- | []]].
    + apply Hfk; now rewrite Hms.
    + apply register_user_registered.
  - rewrite Hms in Hids.
    rewrite map_app, length_app, Hids; cbn [map List.length].
    rewrite Nat.add_1_r, seq_S, map_app; cbn [map ingested_row id].
    do 2 f_equal; unfold sql_count; lia.
Qed.

Lemma button_callback_fst (TB : string -> Q * Q) (now : datetime) (uid : Z)
    (data : string) (db : database) :
  fst (button_callback TB now uid data db) = db.
Proof.
  unfold button_callback.
  destruct (String.eqb data "mood"); [apply mood_analysis_fst|].
  destruct (String.eqb data "personality"); [apply personality_analysis_fst|].
  destruct (String.eqb data "report"); [apply generate_report_fst | reflexivity].
Qed.

(** X2. Every database the handlers make of the fresh one keeps the user ids
    distinct, every user's counter equal to the number of the user's stored
    messages, every message owned by a registered user, and the message ids
    numbered 1, 2, ... in table order. *)
Theorem reachable_store_ok :
  forall (TB : string -> Q * Q) (db : database),
  reachable TB db -> store_ok db.
Proof.
  intros TB db H; induction H.
  - constructor; cbn; [constructor | intros u [] | intros r [] | reflexivity].
  - now apply register_user_ok.
  - now apply analyze_message_ok.
  - now rewrite mood_analysis_fst.
  - now rewrite personality_analysis_fst.
  - now rewrite generate_report_fst.
  - now rewrite user_stats_fst.
  - now rewrite button_callback_fst.
Qed.

(** A witness of X2: the store with five messages of user 7. *)
Lemma reachable_store_ok_witness :
  reachable (fun _ => (0 # 1, 0 # 1)) five_db /\ store_ok five_db.
Proof.
  assert (H : reachable (fun _ => (0 # 1, 0 # 1)) five_db).
  { unfold five_db, four_db, store_all, store_message; cbn [fold_left].
    repeat apply reach_message; apply reach_setup. }
  split; [exact H | exact (reachable_store_ok _ _ H)].
Defined.

Lemma analyze_message_reply (TB : string -> Q * Q) (now_reg now_msg : datetime)
    (uid : Z) (un : option string) (fn text : string) (db : database) :
  snd (analyze_message TB now_reg now_msg uid un fn text db)
  = match find (fun u => u_user_id u =? uid)
               (map (bump_counter uid)
                    (users (register_user now_reg uid un fn db))) with
    | None => Raised TypeError
    | Some u =>
        if total_messages u mod 10 =? 0 then
          Sent (QuickAnalysis
                  {| fb_message_number := total_messages u;
                     fb_mood := mood_label (analyze_sentiment TB text);
                     fb_stress := category (detect_stress_level text);
                     fb_confidence := confidence (analyze_sentiment TB text) |})
        else Nothing
    end.
Proof.
  unfold analyze_message, bump_counter; cbn [users].
  destruct (find _ _); [|reflexivity].
  destruct (_ =? 0); reflexivity.
Qed.

Lemma analyze_message_rows (TB : string -> Q * Q) (now_reg now_msg : datetime)
    (uid : Z) (un : option string) (fn text : string) (db : database) (x : Z) :
  rows_of (fst (analyze_message TB now_reg now_msg uid un fn text db)) x
  = (rows_of db x
     ++ (if uid =? x then [ingested_row TB now_msg uid text db] else []))%list.
Proof.
  rewrite analyze_message_store.
  rewrite (rows_of_append (users db) _ (messages db)).
  destruct db; reflexivity.
Qed.


(** X4. On a database that keeps the counters right, the reply of
    [analyze_message] is decided by the number [n] of messages the sender has
    stored once this one is in: a quick analysis numbered [n], with the mood
    and confidence of this message and its stress category, when 10 divides
    [n], and no reply otherwise. *)
Theorem feedback_every_tenth :
  forall (TB : string -> Q * Q) (now_reg now_msg : datetime) (uid : Z)
         (un : option string) (fn text : string) (db : database),
  store_ok db ->
  let out := analyze_message TB now_reg now_msg uid un fn text db in
  let n := sql_count (rows_of (fst out) uid) in
  n = sql_count (rows_of db uid) + 1 /\
  store_ok (fst out) /\
  snd out
  = if n mod 10 =? 0 then
      Sent (QuickAnalysis
              {| fb_message_number := n;
                 fb_mood := mood_label (analyze_sentiment TB text);
                 fb_stress := category (detect_stress_level text);
                 fb_confidence := Qabs (fst (TB text)) |})
    else Nothing.
Proof.
  intros TB now_reg now_msg uid un fn text db Hok out n; subst out n.
  rewrite analyze_message_rows, Z.eqb_refl, sql_count_app.
  change (sql_count [ingested_row TB now_msg uid text db]) with 1.
  split; [reflexivity|].
  split; [now apply analyze_message_ok|].
  rewrite analyze_message_reply, find_bump.
  pose proof (register_user_ok now_reg uid un fn db Hok) as [_ Hcnt _ _].
  destruct (find_registered uid _ (register_user_registered now_reg uid un fn db))
    as (u & -> & Hu & Hid).
  specialize (Hcnt u Hu).
  rewrite Hid in Hcnt.
  rewrite (rows_of_messages _ db uid (register_user_messages _ _ _ _ _)) in Hcnt.
  cbn [option_map]; unfold bump_counter.
  rewrite Hid, Z.eqb_refl; cbn [total_messages]; rewrite Hcnt.
  replace (confidence (analyze_sentiment TB text)) with (Qabs (fst (TB text)))
    by (unfold analyze_sentiment; destruct (TB text); reflexivity).
  reflexivity.
Qed.

(** A witness of X4: the fresh database keeps the counters right, and the
    first message gets no reply. *)
Lemma feedback_every_tenth_witness :
  store_ok setup_database /\
  snd (analyze_message (fun _ => (0 # 1, 0 # 1)) 0 0 7 None "a" "hello"
         setup_database) = Nothing.
Proof.
  assert (H : store_ok setup_database).
  { constructor; cbn; [constructor | intros u [] | intros r [] | reflexivity]. }
  split; [exact H|].
  destruct (feedback_every_tenth (fun _ => (0 # 1, 0 # 1)) 0 0 7 None "a"
              "hello" setup_database H) as (_ & _ & Hout).
  exact Hout.
Defined.

(** ** One user's reports and the other users *)

(** X5. A message of another user, and a /start of anyone, change none of a
    user's four reports. *)
Theorem reports_isolated :
  forall (TB : string -> Q * Q) (now now_reg now_msg : datetime) (uid other : Z)
         (un : option string) (fn text : string) (db : database),
  other <> uid ->
  let db1 := fst (analyze_message TB now_reg now_msg other un fn text db) in
  let db2 := fst (start_command now_reg other un fn db) in
  let db3 := fst (start_command now_reg uid un fn db) in
  (snd (mood_analysis TB uid db1) = snd (mood_analysis TB uid db) /\
   snd (personality_analysis uid db1) = snd (personality_analysis uid db) /\
   snd (generate_report now uid db1) = snd (generate_report now uid db) /\
   snd (user_stats now uid db1) = snd (user_stats now uid db)) /\
  (snd (mood_analysis TB uid db2) = snd (mood_analysis TB uid db) /\
   snd (personality_analysis uid db2) = snd (personality_analysis uid db) /\
   snd (generate_report now uid db2) = snd (generate_report now uid db) /\
   snd (user_stats now uid db2) = snd (user_stats now uid db)) /\
  (snd (mood_analysis TB uid db3) = snd (mood_analysis TB uid db) /\
   snd (personality_analysis uid db3) = snd (personality_analysis uid db) /\
   snd (generate_report now uid db3) = snd (generate_report now uid db) /\
   snd (user_stats now uid db3) = snd (user_stats now uid db)).
Proof.
  intros TB now now_reg now_msg uid other un fn text db Hne db1 db2 db3.
  assert (H1 : rows_of db1 uid = rows_of db uid).
  { subst db1; rewrite analyze_message_rows.
    replace (other =? uid) with false by (symmetry; now apply Z.eqb_neq).
    apply app_nil_r. }
  assert (H2 : rows_of db2 uid = rows_of db uid)
    by (apply rows_of_messages, register_user_messages).
  assert (H3 : rows_of db3 uid = rows_of db uid)
    by (apply rows_of_messages, register_user_messages).
  assert (Hall : forall d, rows_of d uid = rows_of db uid ->
    snd (mood_analysis TB uid d) = snd (mood_analysis TB uid db) /\
    snd (personality_analysis uid d) = snd (personality_analysis uid db) /\
    snd (generate_report now uid d) = snd (generate_report now uid db) /\
    snd (user_stats now uid d) = snd (user_stats now uid db)).
  { intros d Hd.
    assert (Hw : forall n, recent_rows d uid n = recent_rows db uid n)
      by (intros n; unfold recent_rows, newest_first; now rewrite Hd).
    split; [apply mood_analysis_window_only, Hw|].
    split; [apply personality_analysis_window_only, Hw|].
    split; [now apply generate_report_rows_only
           | now apply user_stats_rows_only]. }
  auto.
Qed.

(** A witness of X5: user 8 writes into the store where user 7 has one
    message. *)
Lemma reports_isolated_witness :
  8 <> 7 /\
  snd (user_stats (at_time 11 1 0) 7
         (fst (analyze_message (fun _ => (0 # 1, 0 # 1)) 0 0 8 None "b" "hi"
                 late_db)))
  = snd (user_stats (at_time 11 1 0) 7 late_db).
Proof.
  split; [discriminate|].
  destruct (reports_isolated (fun _ => (0 # 1, 0 # 1)) (at_time 11 1 0) 0 0 7 8
              None "b" "hi" late_db ltac:(discriminate))
    as ((_ & _ & _ & H) & _).
  exact H.
Defined.

(** ** Strings, again *)





Lemma lower_length (s : string) : String.length (Py.lower s) = String.length s.
Proof. induction s as [|c s IH]; simpl; [reflexivity | now rewrite IH]. Qed.









(** ** The personality report, again *)



Lemma personality_analysis_reply (uid : Z) (db : database) :
  (Forall (fun kv => snd kv = 0) (analyze_personality db uid) /\
   snd (personality_analysis uid db) = Sent NeedMoreForPersonality) \/
  (Exists (fun kv => snd kv <> 0) (analyze_personality db uid) /\
   exists insights,
     snd (personality_analysis uid db)
     = Sent (PersonalityAnalysis
               {| pr_lines :=
                    map (fun kv =>
                           {| tl_trait := fst kv; tl_score := snd kv;
                              tl_filled := snd kv / 10;
                              tl_empty := 10 - snd kv / 10 |})
                        (analyze_personality db uid);
                  pr_dominant :=
                    match analyze_personality db uid with
                    | [] => extraversion
                    | kv :: rest => max_by_score kv rest
                    end;
                  pr_insights := insights |})).
Proof.
  unfold personality_analysis.
  rewrite analyze_personality_scores; cbn [map].
  set (e := Z.min (5 * raw_count db uid extraversion) 100).
  set (o := Z.min (5 * raw_count db uid openness) 100).
  set (c := Z.min (5 * raw_count db uid conscientiousness) 100).
  set (a := Z.min (5 * raw_count db uid agreeableness) 100).
  set (n := Z.min (5 * raw_count db uid neuroticism) 100).
  clearbody e o c a n.
  cbn [map existsb snd fst score_of find trait_eqb option_map].
  destruct (Z.eqb_spec e 0) as [He|He];
  destruct (Z.eqb_spec o 0) as [Ho|Ho];
  destruct (Z.eqb_spec c 0) as [Hc|Hc];
  destruct (Z.eqb_spec a 0) as [Ha|Ha];
  destruct (Z.eqb_spec n 0) as [Hn|Hn];
  cbn [negb orb andb snd fst];
  try (left; split; [repeat constructor; assumption | reflexivity]);
  right; (split; [|eexists; reflexivity]);
  first [ apply Exists_cons_hd; assumption
        | apply Exists_cons_tl, Exists_cons_hd; assumption
        | do 2 apply Exists_cons_tl; apply Exists_cons_hd; assumption
        | do 3 apply Exists_cons_tl; apply Exists_cons_hd; assumption
        | do 4 apply Exists_cons_tl; apply Exists_cons_hd; assumption ].
Qed.


Lemma max_by_score_spec (l : list (trait * Z)) (best : trait * Z) :
  exists before d after,
    best :: l = (before ++ d :: after)%list /\
    max_by_score best l = fst d /\
    snd best <= snd d /\
    (forall x, In x before -> snd x < snd d) /\
    (forall x, In x after -> snd x <= snd d).
Proof.
  revert best; induction l as [|kv l IH]; intros best.
  - exists [], best, []; repeat split; try lia; intros x [].
  - cbn [max_by_score].
    destruct (Z.ltb_spec (snd best) (snd kv)) as [Hlt | Hge].
    + destruct (IH kv) as (b & d & a & Heq & Hmax & Hle & Hb & Ha).
      exists (best :: b), d, a.
      split; [cbn [app]; now rewrite Heq|].
      split; [assumption|].
      split; [lia|].
      split; [intros x [<- | Hx]; [lia | auto] | assumption].
    + destruct (IH best) as (b & d & a & Heq & Hmax & Hle & Hb & Ha).
      destruct b as [|b0 b]; cbn [app] in Heq; inversion Heq; subst.
      * exists [], d, (kv :: a).
        split; [reflexivity|].
        split; [assumption|].
        split; [lia|].
        split; [intros x [] | intros x [<- | Hx]; [lia | auto]].
      * exists (b0 :: kv :: b), d, a.
        split; [reflexivity|].
        split; [assumption|].
        split; [lia|].
        split; [|assumption].
        intros x [<- | [<- | Hx]].
        -- apply Hb; now left.
        -- assert (snd b0 < snd d) by (apply Hb; now left); lia.
        -- apply Hb; now right.
Qed.

Lemma personality_insights (uid : Z) (db : database) (r : personality_report) :
  snd (personality_analysis uid db) = Sent (PersonalityAnalysis r) ->
  pr_insights r
  = ((if 60 <? Z.min (5 * raw_count db uid extraversion) 100
      then [SociallyEngaged] else [])
     ++ (if 70 <? Z.min (5 * raw_count db uid openness) 100
         then [CreativeAndOpen] else [])
     ++ (if 65 <? Z.min (5 * raw_count db uid conscientiousness) 100
         then [GoodOrganization] else [])
     ++ (if 70 <? Z.min (5 * raw_count db uid agreeableness) 100
         then [CooperativeHelpful] else [])
     ++ (if 60 <? Z.min (5 * raw_count db uid neuroticism) 100
         then [SensitiveToStress] else []))%list.
Proof.
  unfold personality_analysis.
  rewrite analyze_personality_scores; cbn [map].
  set (e := Z.min (5 * raw_count db uid extraversion) 100).
  set (o := Z.min (5 * raw_count db uid openness) 100).
  set (c := Z.min (5 * raw_count db uid conscientiousness) 100).
  set (a := Z.min (5 * raw_count db uid agreeableness) 100).
  set (n := Z.min (5 * raw_count db uid neuroticism) 100).
  clearbody e o c a n.
  cbn [map existsb snd fst score_of find trait_eqb option_map].
  destruct (negb _); cbn [snd]; intros H; [discriminate|].
  injection H as <-; reflexivity.
Qed.

(** X9. In a personality assessment that is sent, the five lines carry the
    scores in the order of the lexicon, each bar has [score // 10] filled
    segments out of 10; the dominant trait has the largest score, which is
    positive, and among traits of that score it is the one listed first.  The
    insight lines appear from a raw keyword count of 13 (extraversion,
    neuroticism), 14 (conscientiousness) and 15 (openness, agreeableness). *)
Theorem personality_report_shape :
  forall (uid : Z) (db : database) (r : personality_report),
  snd (personality_analysis uid db) = Sent (PersonalityAnalysis r) ->
  map (fun l => (tl_trait l, tl_score l)) (pr_lines r)
  = analyze_personality db uid /\
  map tl_trait (pr_lines r)
  = [extraversion; openness; conscientiousness; agreeableness; neuroticism] /\
  Forall (fun l => 0 <= tl_score l <= 100 /\
                   tl_filled l = tl_score l / 10 /\
                   0 <= tl_filled l <= 10 /\
                   tl_filled l + tl_empty l = 10) (pr_lines r) /\
  (exists before d after,
     analyze_personality db uid = (before ++ d :: after)%list /\
     pr_dominant r = fst d /\ 0 < snd d /\
     (forall x, In x before -> snd x < snd d) /\
     (forall x, In x after -> snd x <= snd d)) /\
  (In SociallyEngaged (pr_insights r) <-> 13 <= raw_count db uid extraversion) /\
  (In CreativeAndOpen (pr_insights r) <-> 15 <= raw_count db uid openness) /\
  (In GoodOrganization (pr_insights r)
   <-> 14 <= raw_count db uid conscientiousness) /\
  (In CooperativeHelpful (pr_insights r)
   <-> 15 <= raw_count db uid agreeableness) /\
  (In SensitiveToStress (pr_insights r) <-> 13 <= raw_count db uid neuroticism).
Proof.
  intros uid db r Hsent.
  pose proof (personality_insights uid db r Hsent) as Hins.
  destruct (personality_analysis_reply uid db)
    as [[_ Hout] | [Hex (ins & Hout)]]; rewrite Hout in Hsent;
    [discriminate|].
  match type of Hout with
  | _ = Sent (PersonalityAnalysis ?R) => assert (Hr : r = R) by congruence
  end.
  subst r; clear Hsent; cbn [pr_lines pr_dominant pr_insights] in *.
  assert (Hrange : forall kv, In kv (analyze_personality db uid) ->
                              0 <= snd kv <= 100).
  { intros kv Hkv; rewrite analyze_personality_scores in Hkv.
    apply in_map_iff in Hkv as (t & <- & _); cbn [snd].
    pose proof (raw_count_nonneg db uid t); lia. }
  split.
  { rewrite map_map; cbn [tl_trait tl_score].
    rewrite <- (map_id (analyze_personality db uid)) at 2.
    apply map_ext; intros [t s]; reflexivity. }
  split.
  { rewrite map_map; cbn [tl_trait].
    rewrite analyze_personality_scores, map_map; reflexivity. }
  split.
  { apply Forall_forall; intros l Hl.
    apply in_map_iff in Hl as (kv & <- & Hkv).
    cbn [tl_score tl_filled tl_empty].
    specialize (Hrange kv Hkv).
    assert (0 <= snd kv / 10 <= 10).
    { split; [apply Z.div_pos; lia|].
      apply Z.div_le_upper_bound; lia. }
    repeat split; lia. }
  split.
  { destruct (analyze_personality db uid) as [|kv rest] eqn:E;
      [inversion Hex|].
    destruct (max_by_score_spec rest kv) as (b & d & a & Heq & Hmax & _ & Hb & Ha).
    exists b, d, a.
    repeat split; try assumption.
    apply Exists_exists in Hex as (x & Hx & Hne).
    assert (Hx0 : 0 < snd x) by (specialize (Hrange x Hx); lia).
    rewrite Heq in Hx; apply in_app_or in Hx as [Hx | [<- | Hx]].
    - specialize (Hb x Hx); lia.
    - assumption.
    - specialize (Ha x Hx); lia. }
  rewrite Hins; clear Hins.
  pose proof (raw_count_nonneg db uid extraversion).
  pose proof (raw_count_nonneg db uid openness).
  pose proof (raw_count_nonneg db uid conscientiousness).
  pose proof (raw_count_nonneg db uid agreeableness).
  pose proof (raw_count_nonneg db uid neuroticism).
  destruct (Z.ltb_spec 60 (Z.min (5 * raw_count db uid extraversion) 100));
  destruct (Z.ltb_spec 70 (Z.min (5 * raw_count db uid openness) 100));
  destruct (Z.ltb_spec 65 (Z.min (5 * raw_count db uid conscientiousness) 100));
  destruct (Z.ltb_spec 70 (Z.min (5 * raw_count db uid agreeableness) 100));
  destruct (Z.ltb_spec 60 (Z.min (5 * raw_count db uid neuroticism) 100));
  cbn [app In];
  repeat split; intros; try lia;
  repeat match goal with
         | H : _ \/ _ |- _ => destruct H
         | H : False |- _ => destruct H
         end;
  try discriminate; tauto.
Qed.

(** A witness of X9: user 8 wrote "party with friends". *)
Lemma personality_report_shape_witness :
  exists r,
    snd (personality_analysis 8 late_db_other) = Sent (PersonalityAnalysis r) /\
    pr_dominant r = extraversion /\
    map tl_trait (pr_lines r)
    = [extraversion; openness; conscientiousness; agreeableness; neuroticism].
Proof.
  eexists; split; [reflexivity|].
  split; [reflexivity|].
  apply (personality_report_shape 8 late_db_other); reflexivity.
Defined.

(** ** The comprehensive report, again *)

























(** ** The statistics report, again *)





(** ** The mood report, again *)



Lemma mood_analysis_shape (TB : string -> Q * Q) (uid : Z) (db : database)
    (rep : mood_report) :
  snd (mood_analysis TB uid db) = Sent (MoodAnalysis rep) ->
  exists newest rest,
    recent_rows db uid 20 = newest :: rest /\
    mr_mood rep = mood_label (analyze_sentiment TB (message_text newest)) /\
    mr_intensity rep = confidence (analyze_sentiment TB (message_text newest)) /\
    mr_stress rep = category (detect_stress_level (message_text newest)) /\
    mr_avg_sentiment rep
    = statistics_mean (map sentiment_score (newest :: rest)) /\
    mr_count rep = Z.of_nat (List.length (newest :: rest)) /\
    mr_insights rep
    = ((if Qlt_bool (mr_avg_sentiment rep) (- lit_0_3) then
          [TalkToSomeone; TryRelaxation]
        else if Qlt_bool lit_0_3 (mr_avg_sentiment rep) then
          [GreatEnergy; GoodMentalSpace]
        else [MoodBalanced; ContinueMonitoring])
       ++ (if 5 <? level (detect_stress_level (message_text newest))
           then [TakeBreaks] else []))%list.
Proof.
  unfold mood_analysis.
  destruct (recent_rows db uid 20) as [|newest rest]; cbn [snd];
    [discriminate|].
  intros H.
  match type of H with
  | Sent (MoodAnalysis ?R) = _ => assert (E : rep = R) by congruence
  end.
  subst rep; clear H.
  exists newest, rest; repeat split; reflexivity.
Qed.



(** ** Replies and buttons *)

Lemma mood_analysis_sent (TB : string -> Q * Q) (uid : Z) (db : database) :
  exists r, snd (mood_analysis TB uid db) = Sent r.
Proof.
  unfold mood_analysis.
  destruct (recent_rows db uid 20); eexists; reflexivity.
Qed.






(** ** A message and the mood report after it *)

Lemma order_by_newest_last (row : message_row) (l : list message_row) :
  (forall m, In m l -> timestamp m < timestamp row) ->
  order_by (fun x y => timestamp y <=? timestamp x) (l ++ [row])
  = row :: order_by (fun x y => timestamp y <=? timestamp x) l.
Proof.
  induction l as [|x l IH]; intros H; [reflexivity|].
  cbn [app order_by fold_right].
  change (fold_right (insert_row (fun x y => timestamp y <=? timestamp x)) []
                     (l ++ [row]))
    with (order_by (fun x y => timestamp y <=? timestamp x) (l ++ [row])).
  rewrite IH by (intros m Hm; apply H; now right).
  cbn [insert_row].
  replace (timestamp row <=? timestamp x) with false; [reflexivity|].
  symmetry; apply Z.leb_gt, H; now left.
Qed.

(** X16. When a message arrives at a clock reading later than every stored
    message of its sender, the mood report asked next describes that message:
    its mood, intensity and stress category are those of the new text, and
    it counts one message more than before, up to 20. *)
Theorem mood_after_message :
  forall (TB : string -> Q * Q) (now_reg now_msg : datetime) (uid : Z)
         (un : option string) (fn text : string) (db : database),
  (forall m, In m (rows_of db uid) -> timestamp m < now_msg) ->
  let db' := fst (analyze_message TB now_reg now_msg uid un fn text db) in
  exists rest rep,
    recent_rows db' uid 20
    = ingested_row TB now_msg uid text db :: rest /\
    snd (mood_analysis TB uid db') = Sent (MoodAnalysis rep) /\
    mr_mood rep = classify (fst (TB text)) /\
    mr_intensity rep = Qabs (fst (TB text)) /\
    mr_stress rep = category (detect_stress_level text) /\
    mr_count rep = Z.min 20 (sql_count (rows_of db uid) + 1).
Proof.
  intros TB now_reg now_msg uid un fn text db Hlater db'.
  assert (Hrows : rows_of db' uid
                  = (rows_of db uid ++ [ingested_row TB now_msg uid text db])%list)
    by (subst db'; rewrite analyze_message_rows, Z.eqb_refl; reflexivity).
  assert (Hnf : newest_first db' uid
                = ingested_row TB now_msg uid text db :: newest_first db uid).
  { unfold newest_first; rewrite Hrows; apply order_by_newest_last, Hlater. }
  assert (W : recent_rows db' uid 20
              = ingested_row TB now_msg uid text db
                :: firstn 19 (newest_first db uid))
    by (unfold recent_rows; rewrite Hnf; reflexivity).
  destruct (mood_analysis_sent TB uid db') as [reply Hreply].
  assert (Hsent : exists rep, reply = MoodAnalysis rep).
  { revert Hreply; unfold mood_analysis; rewrite W; cbn [snd].
    intros H; eexists; symmetry.
    match type of H with Sent ?a = Sent _ => assert (E : a = reply) by congruence end.
    exact E. }
  destruct Hsent as [rep ->].
  destruct (mood_analysis_shape TB uid db' rep Hreply)
    as (newest & rest & W' & Hmood & Hint & Hstress & _ & Hcount & _).
  rewrite W in W'.
  assert (newest = ingested_row TB now_msg uid text db) by congruence.
  subst newest.
  exists (firstn 19 (newest_first db uid)), rep.
  split; [assumption|].
  split; [assumption|].
  cbn [ingested_row message_text] in Hmood, Hint, Hstress.
  split.
  { rewrite Hmood; unfold analyze_sentiment, classify.
    destruct (TB text); reflexivity. }
  split.
  { rewrite Hint; unfold analyze_sentiment; destruct (TB text); reflexivity. }
  split; [assumption|].
  rewrite Hcount, <- W', <- W, recent_rows_length, Hrows, length_app.
  unfold sql_count; cbn [List.length]; lia.
Qed.

(** A witness of X16: a second message of user 7, a day after the first. *)
Lemma mood_after_message_witness :
  (forall m, In m (rows_of late_db 7) -> timestamp m < at_time 11 23 0) /\
  exists rest rep,
    recent_rows
      (fst (analyze_message (fun _ => (1 # 2, 0 # 1)) 0 (at_time 11 23 0) 7
              None "a" "tired" late_db)) 7 20
    = ingested_row (fun _ => (1 # 2, 0 # 1)) (at_time 11 23 0) 7 "tired" late_db
      :: rest /\
    snd (mood_analysis (fun _ => (1 # 2, 0 # 1)) 7
           (fst (analyze_message (fun _ => (1 # 2, 0 # 1)) 0 (at_time 11 23 0) 7
                   None "a" "tired" late_db)))
    = Sent (MoodAnalysis rep) /\
    mr_mood rep = Positive.
Proof.
  assert (H : forall m, In m (rows_of late_db 7) -> timestamp m < at_time 11 23 0).
  { intros m [<- | []]; reflexivity. }
  split; [exact H|].
  destruct (mood_after_message (fun _ => (1 # 2, 0 # 1)) 0 (at_time 11 23 0) 7
              None "a" "tired" late_db H)
    as (rest & rep & H1 & H2 & H3 & _).
  exists rest, rep; repeat split; assumption.
Defined.
